(** * Kokoro TTS demo: app.py and download_weights.py

    Shallow embedding of the two Python scripts of the repository.
    Python exceptions become an explicit [Raise] outcome, the console
    ([print]) is a list of lines threaded as state, and the external
    collaborators (the [KPipeline] constructor, the pipeline callable,
    [huggingface_hub.snapshot_download]) are arguments of the
    definitions that call them. *)

From Stdlib Require Import String List ZArith Bool.
From stdpp Require Import base gmap strings.
Import ListNotations.
Open Scope Z_scope.

(** ** Python values shared by both scripts *)

(** A raised Python exception: its class name and [str(e)]. *)
Record exc := mk_exc { exc_cls : string; exc_msg : string }.

(** Classes that derive from [BaseException] but not from [Exception]:
    [except Exception] does not catch them. *)
Definition base_only_classes : list string :=
  ["BaseException"; "KeyboardInterrupt"; "SystemExit"; "GeneratorExit"].

(** [isinstance(e, Exception)]. *)
Definition is_exception (e : exc) : bool :=
  negb (existsb (String.eqb (exc_cls e)) base_only_classes).

(** [str(e)]. *)
Definition py_str (e : exc) : string := exc_msg e.

(** Result of running a Python statement block: it returns a value or
    raises. *)
Inductive outcome (A : Type) : Type :=
| Ret (a : A)
| Raise (e : exc).
Arguments Ret {A} a.
Arguments Raise {A} e.

(** Console effects: the lines printed so far. *)
Definition console := list string.

(** The state-and-exception monad in which both scripts run. *)
Definition PyM (A : Type) : Type := console -> outcome A * console.

Definition py_ret {A} (a : A) : PyM A := fun c => (Ret a, c).
Definition py_raise {A} (e : exc) : PyM A := fun c => (Raise e, c).
Definition py_bind {A B} (m : PyM A) (k : A -> PyM B) : PyM B :=
  fun c => match m c with
           | (Ret a, c') => k a c'
           | (Raise e, c') => (Raise e, c')
           end.
(** [print(s)] *)
Definition py_print (s : string) : PyM unit := fun c => (Ret tt, c ++ [s]).
(** [try: body except Exception as e: handler(e)] *)
Definition py_try_except {A} (body : PyM A) (handler : exc -> PyM A) : PyM A :=
  fun c => match body c with
           | (Raise e, c') => if is_exception e then handler e c' else (Raise e, c')
           | r => r
           end.
(** Lifts a call to an external collaborator that returns or raises. *)
Definition py_lift {A} (r : outcome A) : PyM A := fun c => (r, c).

(** Sequencing of two statements. *)
Definition py_seq {A} (m : PyM unit) (k : PyM A) : PyM A := py_bind m (fun _ => k).

Local Open Scope string_scope.

(** [sys.exit(code)] raises [SystemExit(code)]. *)
Definition sys_exit {A} (code : string) : PyM A :=
  py_raise (mk_exc "SystemExit" code).

(** Exit status of a process ended by an uncaught exception:
    [SystemExit] carries it (the repository only uses [sys.exit(1)]); any
    other uncaught exception ends the interpreter with status 1. *)
Definition exit_status (e : exc) : Z :=
  if String.eqb (exc_cls e) "SystemExit"
  then (if String.eqb (exc_msg e) "0" then 0 else 1)
  else 1.

(** ** app.py *)
Module App.

(** A Python generator, as far as [next] observes it: it yields an item
    and can be resumed, it raises, or it is exhausted. *)
Inductive gen (Y : Type) : Type :=
| GEnd
| GRaise (e : exc)
| GYield (y : Y) (rest : gen Y).
Arguments GEnd {Y}.
Arguments GRaise {Y} e.
Arguments GYield {Y} y rest.

(** The exception [next] raises on an exhausted generator:
    [StopIteration()], whose [str] is empty. *)
Definition stop_iteration : exc := mk_exc "StopIteration" "".

(** [next(generator)] *)
Definition py_next {Y} (g : gen Y) : PyM Y :=
  match g with
  | GEnd => py_raise stop_iteration
  | GRaise e => py_raise e
  | GYield y _ => py_ret y
  end.

Section GenerateSpeech.

(** Sample sequences are opaque to the code: it never inspects them. *)
Variable audio : Type.

(** One segment yielded by the pipeline: [(graphemes, phonemes, audio)]. *)
Definition segment : Type := (string * string * audio)%type.

(** The pipeline callable [pipeline(text, voice=..., speed=...)]: the call
    returns a generator or raises. *)
Definition pipeline_fn : Type := string -> string -> Z -> outcome (gen segment).

(** [gr.Error(message)] *)
Definition gr_error (msg : string) : exc := mk_exc "gradio.Error" msg.

Definition voice : string := "af_heart".
Definition speed : Z := 1.
Definition sample_rate : Z := 24000.

(** [generate_speech(text)]; the module-level [pipeline] is passed
    explicitly. *)
Definition generate_speech (pipeline : pipeline_fn) (text : string)
  : PyM (Z * audio) :=
  py_try_except
    (py_bind (py_lift (pipeline text voice speed)) (fun generator =>
     py_bind (py_next generator) (fun '(_, _, a) =>
     py_ret (sample_rate, a))))
    (fun e =>
       py_seq (py_print ("Error generating speech: " ++ py_str e))
       (py_raise (gr_error ("Failed to generate speech: " ++ py_str e)))).

(** The Gradio interface running [generate_speech] on each submitted
    text in turn; a raised [gr.Error] is shown to the user and the server
    goes on with the next request. The outcome of each request is
    recorded. *)
Fixpoint serve (pipeline : pipeline_fn) (requests : list string) (c : console)
  : list (outcome (Z * audio)) * console :=
  match requests with
  | [] => ([], c)
  | text :: rest =>
      let '(r, c1) := generate_speech pipeline text c in
      let '(rs, c2) := serve pipeline rest c1 in
      (r :: rs, c2)
  end.

(** The module body of app.py up to the creation of the interface:
    device selection, then
    [try: pipeline = KPipeline(lang_code='en') except Exception: sys.exit(1)]. *)
Definition app_module (cuda_available : bool)
    (KPipeline : string -> outcome pipeline_fn) : PyM pipeline_fn :=
  py_seq (py_print ("Using device: " ++ if cuda_available then "cuda" else "cpu"))
  (py_try_except
     (py_seq (py_print "Loading Kokoro TTS model...")
      (py_bind (py_lift (KPipeline "en")) (fun pipeline =>
       py_seq (py_print "Model loaded successfully!")
       (py_ret pipeline))))
     (fun e =>
        py_seq (py_print ("Error loading model: " ++ py_str e))
        (sys_exit "1"))).

(** How a run of [python app.py] ends. *)
Inductive app_end : Type :=
| Exited (status : Z)
| Served (results : list (outcome (Z * audio))).

(** [python app.py]: run the module body, then [demo.launch(...)] serves
    the given requests until the process is stopped from outside. *)
Definition run_app (cuda_available : bool)
    (KPipeline : string -> outcome pipeline_fn) (requests : list string)
  : app_end * console :=
  match app_module cuda_available KPipeline [] with
  | (Raise e, c) => (Exited (exit_status e), c)
  | (Ret pipeline, c) =>
      let '(rs, c') := serve pipeline requests c in (Served rs, c')
  end.

End GenerateSpeech.

Arguments generate_speech {audio} pipeline text.
Arguments serve {audio} pipeline requests c.
Arguments app_module {audio} cuda_available KPipeline.
Arguments run_app {audio} cuda_available KPipeline requests.
Arguments Exited {audio} status.
Arguments Served {audio} results.

End App.

(** ** download_weights.py *)
Module DownloadWeights.

(** The Python values a call can return in this script. *)
Inductive pyval : Type :=
| PyNone
| PyBool (b : bool)
| PyStr (s : string).

(** [huggingface_hub.snapshot_download(repo_id=..., local_dir=..., token=...)]:
    returns the local folder path or raises. *)
Definition snapshot_download_fn : Type :=
  string -> string -> option string -> outcome string.

Definition MODEL_ID : string := "hexgrad/Kokoro-82M".
Definition local_dir : string := "./weights".

Definition newline : string := String (Ascii.ascii_of_nat 10) "".

Definition token_hint : string :=
  newline ++ "Please make sure your Hugging Face token is correct.".
Definition token_url_hint : string :=
  "You can get a token from: https://huggingface.co/settings/tokens".

(** [f"Downloading Kokoro TTS model weights from {MODEL_ID}..."] *)
Definition start_line : string :=
  "Downloading Kokoro TTS model weights from " ++ MODEL_ID ++ "...".

(** [download_model_weights(token)]; it has no [return] statement, so it
    returns [None]. *)
Definition download_model_weights (snapshot_download : snapshot_download_fn)
    (token : option string) : PyM pyval :=
  py_seq (py_print start_line)
  (py_seq
    (py_try_except
       (py_bind (py_lift (snapshot_download MODEL_ID local_dir token)) (fun _ =>
        py_print "Model weights downloaded successfully!"))
       (fun e =>
          py_seq (py_print ("Error downloading model weights: " ++ py_str e))
          (py_seq (py_print token_hint)
           (py_print token_url_hint))))
    (py_ret PyNone)).

(** The process environment, [os.environ]. *)
Abbreviation environ := (gmap string string).

(** [load_dotenv()] with its default [override=False]: each variable of
    the parsed [.env] file is set only when [os.environ] does not already
    have it. *)
Definition load_dotenv (dotenv : gmap string string) (env : environ) : environ :=
  map_fold (fun k v acc =>
              match acc !! k with
              | Some _ => acc
              | None => <[k := v]> acc
              end) env dotenv.

(** Python [a or b] on [str | None]: [a] when it is truthy (present and
    non-empty), else [b]. *)
Definition py_or (a b : option string) : option string :=
  match a with
  | Some s => if String.eqb s "" then b else a
  | None => b
  end.

(** [args.token or os.environ.get("HUGGING_FACE_TOKEN")
     or os.environ.get("HUGGING_FACE_HUB_TOKEN")] *)
Definition resolve_token (arg_token : option string) (env : environ) : option string :=
  py_or (py_or arg_token (env !! "HUGGING_FACE_TOKEN"))
        (env !! "HUGGING_FACE_HUB_TOKEN").

(** The [__main__] block: [load_dotenv()], argument parsing (the value of
    [--token], if given), token resolution, then the download. *)
Definition script_token (env : environ) (dotenv : gmap string string)
    (arg_token : option string) : option string :=
  resolve_token arg_token (load_dotenv dotenv env).

Definition script_main (snapshot_download : snapshot_download_fn)
    (env : environ) (dotenv : gmap string string) (arg_token : option string)
  : PyM pyval :=
  download_model_weights snapshot_download (script_token env dotenv arg_token).

(** [python download_weights.py [--token T]]: its exit status and output. *)
Definition run_download (snapshot_download : snapshot_download_fn)
    (env : environ) (dotenv : gmap string string) (arg_token : option string)
  : Z * console :=
  match script_main snapshot_download env dotenv arg_token [] with
  | (Ret _, c) => (0, c)
  | (Raise e, c) => (exit_status e, c)
  end.

End DownloadWeights.

(** ** Concrete collaborators, used to exercise the statements below *)
Module Samples.
Import App.

(** A pipeline that yields nothing for the empty text, fails on ["boom"],
    and otherwise yields two segments and then raises. *)
Definition sample_pipeline : pipeline_fn (list Z) :=
  fun text v s =>
    if String.eqb text "" then Ret GEnd
    else if String.eqb text "boom" then Raise (mk_exc "RuntimeError" "model failure")
    else Ret (GYield (text, "ph", [1; 2; 3])
               (GYield (text, "ph", [4]) (GRaise (mk_exc "RuntimeError" "late")))).

(** Agrees with [sample_pipeline] at voice ["af_heart"] and speed [1] only. *)
Definition other_config_pipeline : pipeline_fn (list Z) :=
  fun text v s =>
    if String.eqb v "af_heart" && Z.eqb s 1 then sample_pipeline text v s
    else Raise (mk_exc "ValueError" "unknown voice").

Definition failing_KPipeline : string -> outcome (pipeline_fn (list Z)) :=
  fun _ => Raise (mk_exc "RuntimeError" "language not available").


(** [snapshot_download] that completes, and one that fails as on a
    rejected token. *)
Definition snapshot_ok : DownloadWeights.snapshot_download_fn :=
  fun _ dir _ => Ret dir.
Definition snapshot_unauthorized : DownloadWeights.snapshot_download_fn :=
  fun _ _ _ => Raise (mk_exc "HfHubHTTPError" "401 Client Error: Unauthorized").

(** Agrees with [snapshot_ok] on the repository and folder of the script
    only. *)
Definition snapshot_kokoro_only : DownloadWeights.snapshot_download_fn :=
  fun repo dir tok =>
    if String.eqb repo "hexgrad/Kokoro-82M" && String.eqb dir "./weights"
    then Ret dir
    else Raise (mk_exc "RepositoryNotFoundError" "404 Client Error").


End Samples.

(** * Properties *)

Module AppFacts.
Import App.

Section Facts.
Context {audio : Type}.
Implicit Types (p : pipeline_fn audio) (c : console).

(** The outcome of [generate_speech] does not depend on the console it
    starts from, and it only appends to the console. *)
Lemma generate_speech_frame p text c :
  generate_speech p text c =
  (fst (generate_speech p text []), app c (snd (generate_speech p text []))).
Proof.
  unfold generate_speech, py_try_except, py_bind, py_lift, py_seq, py_print,
    py_raise, py_ret.
  destruct (p text voice speed) as [g | e]; simpl.
  - destruct g as [ | e | [[gr ph] a] rest]; simpl.
    + destruct (is_exception stop_iteration); simpl; rewrite ?app_nil_r; reflexivity.
    + destruct (is_exception e); simpl; rewrite ?app_nil_r; reflexivity.
    + rewrite ?app_nil_r; reflexivity.
  - destruct (is_exception e); simpl; rewrite ?app_nil_r; reflexivity.
Qed.

(** Each request's outcome under [serve] is the outcome of
    [generate_speech] on that request's text alone. *)
Lemma serve_outcomes p requests c :
  fst (serve p requests c) =
  map (fun text => fst (generate_speech p text [])) requests.
Proof.
  revert c. induction requests as [ | text rest IH]; intros c; [reflexivity | ].
  simpl. rewrite generate_speech_frame.
  destruct (serve p rest (app c (snd (generate_speech p text [])))) as [rs c2] eqn:E.
  simpl. f_equal. specialize (IH (app c (snd (generate_speech p text [])))).
  rewrite E in IH. exact IH.
Qed.

(** A failure of the synthesis, raised by the call or by [next], with an
    [Exception]: logged, then re-raised as [gr.Error]. *)
Lemma generate_speech_failure p text c e :
  is_exception e = true ->
  (p text voice speed = Raise e \/ p text voice speed = Ret (GRaise e)) ->
  generate_speech p text c =
  (Raise (gr_error ("Failed to generate speech: " ++ py_str e)),
   app c ["Error generating speech: " ++ py_str e]).
Proof.
  intros He [Hp | Hp]; unfold generate_speech, py_try_except, py_bind, py_lift,
    py_seq, py_print, py_raise; rewrite Hp; simpl; rewrite He; reflexivity.
Qed.

(** A first segment is returned with the fixed sample rate. *)
Lemma generate_speech_yield p text c gr ph a rest :
  p text voice speed = Ret (GYield (gr, ph, a) rest) ->
  generate_speech p text c = (Ret (sample_rate, a), c).
Proof.
  intros Hp. unfold generate_speech, py_try_except, py_bind, py_lift, py_ret.
  rewrite Hp. reflexivity.
Qed.

End Facts.

(** C1: whenever [generate_speech] returns, the sample rate it returns
    is 24000. *)
Theorem generate_speech_sample_rate {audio} (p : pipeline_fn audio) text c sr a c' :
  generate_speech p text c = (Ret (sr, a), c') -> sr = 24000.
Proof.
  unfold generate_speech, py_try_except, py_bind, py_lift, py_seq, py_print,
    py_raise, py_ret.
  destruct (p text voice speed) as [g | e]; simpl.
  - destruct g as [ | e | [[gr ph] a0] rest]; simpl.
    + destruct (is_exception stop_iteration); simpl; intros H; discriminate H.
    + destruct (is_exception e); simpl; intros H; discriminate H.
    + intros H. injection H as H _ _. rewrite <- H. reflexivity.
  - destruct (is_exception e); simpl; intros H; discriminate H.
Qed.

(** C2: when the pipeline yields a first segment, [generate_speech]
    returns that segment's audio, whatever the generator would produce
    after it (further segments or an error). *)
Theorem generate_speech_first_segment_only {audio} (p : pipeline_fn audio)
    text c gr ph a rest :
  p text voice speed = Ret (GYield (gr, ph, a) rest) ->
  generate_speech p text c = (Ret (24000, a), c).
Proof.
  apply generate_speech_yield.
Qed.

(** C3: a synthesis failure with an [Exception] is logged to the console
    and re-raised as [gr.Error] whose message ends with [str(e)]; a later
    request whose synthesis succeeds is served normally. *)
Theorem generate_speech_error_isolation {audio} (p : pipeline_fn audio)
    t1 t2 c e gr ph a rest :
  is_exception e = true ->
  (p t1 voice speed = Raise e \/ p t1 voice speed = Ret (GRaise e)) ->
  p t2 voice speed = Ret (GYield (gr, ph, a) rest) ->
  generate_speech p t1 c =
    (Raise (gr_error ("Failed to generate speech: " ++ py_str e)),
     app c ["Error generating speech: " ++ py_str e]) /\
  fst (serve p [t1; t2] c) =
    [Raise (gr_error ("Failed to generate speech: " ++ py_str e)); Ret (24000, a)].
Proof.
  intros He Hfail Hok. split.
  - apply generate_speech_failure; assumption.
  - rewrite serve_outcomes. simpl.
    rewrite (generate_speech_failure p t1 [] e He Hfail).
    rewrite (generate_speech_yield p t2 [] gr ph a rest Hok).
    reflexivity.
Qed.

(** C4: when [KPipeline(lang_code='en')] raises an [Exception], the
    process prints the error and ends with status 1 without serving any
    request; a run that serves requests had a successful construction. *)
Theorem app_startup_gate {audio} (cuda : bool)
    (KPipeline : string -> outcome (pipeline_fn audio)) (requests : list string) :
  (forall e, KPipeline "en" = Raise e -> is_exception e = true ->
     run_app cuda KPipeline requests =
       (Exited 1,
        ["Using device: " ++ (if cuda then "cuda" else "cpu");
         "Loading Kokoro TTS model...";
         "Error loading model: " ++ py_str e])) /\
  (forall rs c, run_app cuda KPipeline requests = (Served rs, c) ->
     exists pipeline, KPipeline "en" = Ret pipeline).
Proof.
  split.
  - intros e HK He. unfold run_app, app_module, py_try_except, py_seq, py_bind,
      py_lift, py_print, sys_exit, py_raise.
    rewrite HK. simpl. rewrite He. reflexivity.
  - intros rs c. unfold run_app, app_module, py_try_except, py_seq, py_bind,
      py_lift, py_print, sys_exit, py_raise, py_ret.
    destruct (KPipeline "en") as [pl | e]; simpl.
    + intros _. exists pl. reflexivity.
    + destruct (is_exception e); simpl; intros H; discriminate H.
Qed.

(** C8: the outcome of every request served is that of [generate_speech]
    on its own text, from an empty console: it reads nothing another
    request wrote, and equal texts get equal outcomes. [generate_speech]
    only appends its own lines to the console. *)
Theorem serve_requests_independent {audio} (p : pipeline_fn audio)
    (requests : list string) (c : console) :
  fst (serve p requests c) =
    map (fun text => fst (generate_speech p text [])) requests /\
  (forall text c',
     generate_speech p text c' =
       (fst (generate_speech p text []), app c' (snd (generate_speech p text [])))).
Proof.
  split.
  - apply serve_outcomes.
  - intros text c'. apply generate_speech_frame.
Qed.

(** C9: [generate_speech] consults the pipeline only at voice
    ["af_heart"] and speed [1]: two pipelines that agree there give the
    same behaviour. *)
Theorem generate_speech_fixed_voice_speed {audio} (p p' : pipeline_fn audio) text :
  p text "af_heart" 1 = p' text "af_heart" 1 ->
  generate_speech p text = generate_speech p' text.
Proof.
  intros H. unfold generate_speech, voice, speed. rewrite H. reflexivity.
Qed.

(** C10: a pipeline that yields no segment makes [next] raise
    [StopIteration], which the same [except Exception] branch turns into
    the user-facing [gr.Error]. *)
Theorem generate_speech_empty_generator {audio} (p : pipeline_fn audio) text c :
  p text voice speed = Ret GEnd ->
  generate_speech p text c =
    (Raise (gr_error ("Failed to generate speech: " ++ py_str stop_iteration)),
     app c ["Error generating speech: " ++ py_str stop_iteration]).
Proof.
  intros Hp. unfold generate_speech, py_try_except, py_bind, py_lift, py_next,
    py_seq, py_print, py_raise.
  rewrite Hp. reflexivity.
Qed.

End AppFacts.

Module DownloadFacts.
Import DownloadWeights.

(** C5: a token already present in the process environment under
    [HUGGING_FACE_TOKEN] is used even though the [.env] file sets
    another one under the same name: [load_dotenv()] does not override
    it. *)
Theorem script_token_env_over_dotenv :
  script_token {["HUGGING_FACE_TOKEN" := "env_tok"]}
               {["HUGGING_FACE_TOKEN" := "file_tok"]} None = Some "env_tok".
Proof. reflexivity. Qed.

(** C6 (counterexample): a completed download and a failed one give the
    caller the same return value, [None], and the same exit status, 0. *)
Lemma download_outcome_indistinguishable :
  fst (download_model_weights Samples.snapshot_ok None []) =
    fst (download_model_weights Samples.snapshot_unauthorized None []) /\
  fst (run_download Samples.snapshot_ok ∅ ∅ None) = 0 /\
  fst (run_download Samples.snapshot_unauthorized ∅ ∅ None) = 0.
Proof. repeat split; reflexivity. Qed.

(** C6 (amended): a download failure with an [Exception] is caught and
    printed with the credential hint; the function returns [None] on
    failure as on success, and the script exits with status 0 in both
    cases: only the printed lines differ. *)
Theorem download_failure_printed_returns_none
    (sd_ok sd_fail : snapshot_download_fn) (env : environ)
    (dotenv : gmap string string) (arg_token : option string) r e :
  sd_ok MODEL_ID local_dir (script_token env dotenv arg_token) = Ret r ->
  sd_fail MODEL_ID local_dir (script_token env dotenv arg_token) = Raise e ->
  is_exception e = true ->
  run_download sd_fail env dotenv arg_token =
    (0, [start_line; "Error downloading model weights: " ++ py_str e;
         token_hint; token_url_hint]) /\
  run_download sd_ok env dotenv arg_token =
    (0, [start_line; "Model weights downloaded successfully!"]) /\
  fst (script_main sd_fail env dotenv arg_token []) = Ret PyNone /\
  fst (script_main sd_ok env dotenv arg_token []) = Ret PyNone.
Proof.
  intros Hok Hfail He.
  unfold run_download, script_main, download_model_weights, py_seq, py_bind,
    py_try_except, py_lift, py_print, py_ret.
  rewrite Hok, Hfail. simpl. rewrite He. repeat split; reflexivity.
Qed.

End DownloadFacts.

(** * Further properties of the two scripts *)

Module Helpers.
Import DownloadWeights.

(** After [load_dotenv()], a variable is read from the process
    environment when it is set there, and from the [.env] file
    otherwise. *)
Lemma load_dotenv_lookup_aux (dotenv : gmap string string) (env : environ) k :
  load_dotenv dotenv env !! k =
  match env !! k with Some v => Some v | None => dotenv !! k end.
Proof.
  unfold load_dotenv. revert k.
  apply (map_fold_weak_ind
           (fun (r : environ) (m : gmap string string) =>
              forall k, r !! k = match env !! k with Some v => Some v | None => m !! k end)).
  - intros k. rewrite lookup_empty. destruct (env !! k); reflexivity.
  - intros i x m r Hi IH k.
    destruct (decide (k = i)) as [-> | Hne].
    + rewrite lookup_insert_eq. specialize (IH i). rewrite Hi in IH.
      destruct (r !! i) as [v | ] eqn:Er;
        destruct (env !! i) as [w | ] eqn:Ee; try discriminate.
      * rewrite Er. exact IH.
      * rewrite lookup_insert_eq. reflexivity.
    + rewrite lookup_insert_ne by congruence. rewrite <- IH.
      destruct (r !! i); [reflexivity | ].
      rewrite lookup_insert_ne by congruence. reflexivity.
Qed.


End Helpers.

Module ExtraFacts.
Import App DownloadWeights.

(** [load_dotenv()] gives a variable its process-environment value when
    it is set there, and its [.env] value otherwise. *)
Theorem load_dotenv_lookup (dotenv : gmap string string) (env : environ) k :
  load_dotenv dotenv env !! k =
  match env !! k with Some v => Some v | None => dotenv !! k end.
Proof. apply Helpers.load_dotenv_lookup_aux. Qed.

(** Loading the same [.env] file a second time changes nothing. *)
Theorem load_dotenv_idempotent (dotenv : gmap string string) (env : environ) :
  load_dotenv dotenv (load_dotenv dotenv env) = load_dotenv dotenv env.
Proof.
  apply map_eq. intros k.
  rewrite !Helpers.load_dotenv_lookup_aux.
  destruct (env !! k); [reflexivity | ].
  destruct (dotenv !! k); reflexivity.
Qed.

(** A non-empty [--token] is the token used, whatever the environment
    and the [.env] file hold. *)
Theorem script_token_cli_nonempty (env : environ) (dotenv : gmap string string) t :
  t <> "" -> script_token env dotenv (Some t) = Some t.
Proof.
  intros Ht. unfold script_token, resolve_token, py_or.
  destruct (String.eqb_spec t "") as [E | _]; [contradiction | ].
  destruct (String.eqb_spec t "") as [E | _]; [contradiction | reflexivity].
Qed.

(** An empty [--token ""] is falsy and is treated as if no flag was
    given. *)
Theorem script_token_cli_empty (env : environ) (dotenv : gmap string string) :
  script_token env dotenv (Some "") = script_token env dotenv None.
Proof. reflexivity. Qed.

(** Without [--token], [HUGGING_FACE_TOKEN] is tried before
    [HUGGING_FACE_HUB_TOKEN], each read from the process environment when
    set there and from the [.env] file otherwise. *)
Theorem script_token_without_cli (env : environ) (dotenv : gmap string string) :
  script_token env dotenv None =
  py_or (match env !! "HUGGING_FACE_TOKEN" with
         | Some v => Some v | None => dotenv !! "HUGGING_FACE_TOKEN" end)
        (match env !! "HUGGING_FACE_HUB_TOKEN" with
         | Some v => Some v | None => dotenv !! "HUGGING_FACE_HUB_TOKEN" end).
Proof.
  unfold script_token, resolve_token.
  rewrite !Helpers.load_dotenv_lookup_aux. reflexivity.
Qed.

(** [download_model_weights] consults [snapshot_download] only for the
    repository ["hexgrad/Kokoro-82M"], the folder ["./weights"] and the
    token it is given. *)
Theorem download_fixed_repo_and_dir (sd1 sd2 : snapshot_download_fn) token :
  sd1 "hexgrad/Kokoro-82M" "./weights" token = sd2 "hexgrad/Kokoro-82M" "./weights" token ->
  download_model_weights sd1 token = download_model_weights sd2 token.
Proof.
  intros H. unfold download_model_weights, MODEL_ID, local_dir. rewrite H. reflexivity.
Qed.



(** A successful [generate_speech] prints nothing. *)
Theorem generate_speech_success_silent {audio} (p : pipeline_fn audio) text c r c' :
  generate_speech p text c = (Ret r, c') -> c' = c.
Proof.
  unfold generate_speech, py_try_except, py_bind, py_lift, py_seq, py_print,
    py_raise, py_ret.
  destruct (p text voice speed) as [g | e]; simpl.
  - destruct g as [ | e | [[gr ph] a0] rest]; simpl.
    + intros H. discriminate H.
    + destruct (is_exception e); simpl; intros H; discriminate H.
    + intros H. inversion H. reflexivity.
  - destruct (is_exception e); simpl; intros H; discriminate H.
Qed.

(** Serving a list of requests gives one outcome per request, and the
    console gains exactly the lines each request prints on its own, in
    request order. *)
Theorem serve_console_and_length {audio} (p : pipeline_fn audio) requests c :
  length (fst (serve p requests c)) = length requests /\
  snd (serve p requests c) =
    app c (concat (map (fun text => snd (generate_speech p text [])) requests)).
Proof.
  split.
  - rewrite AppFacts.serve_outcomes. apply length_map.
  - revert c. induction requests as [ | text rest IH]; intros c; simpl.
    + rewrite app_nil_r. reflexivity.
    + rewrite (AppFacts.generate_speech_frame p text c).
      destruct (serve p rest (app c (snd (generate_speech p text [])))) as [rs c2] eqn:E.
      simpl. specialize (IH (app c (snd (generate_speech p text [])))).
      rewrite E in IH. simpl in IH. rewrite IH, app_assoc. reflexivity.
Qed.



End ExtraFacts.

(** * Witnesses: each statement with hypotheses, at a concrete input *)
Module Witnesses.
Import App Samples DownloadWeights.

Lemma generate_speech_sample_rate_witness :
  generate_speech sample_pipeline "hi" [] = (Ret (24000, [1; 2; 3]), []) /\
  24000 = 24000.
Proof.
  split; [reflexivity | ].
  apply (AppFacts.generate_speech_sample_rate sample_pipeline "hi" [] 24000 [1; 2; 3] []).
  reflexivity.
Defined.

Lemma generate_speech_first_segment_only_witness :
  sample_pipeline "hi" voice speed =
    Ret (GYield ("hi", "ph", [1; 2; 3])
           (GYield ("hi", "ph", [4]) (GRaise (mk_exc "RuntimeError" "late")))) /\
  generate_speech sample_pipeline "hi" [] = (Ret (24000, [1; 2; 3]), []).
Proof.
  split; [reflexivity | ].
  apply (AppFacts.generate_speech_first_segment_only sample_pipeline "hi" [] "hi" "ph"
           [1; 2; 3] (GYield ("hi", "ph", [4]) (GRaise (mk_exc "RuntimeError" "late")))).
  reflexivity.
Defined.

Lemma generate_speech_error_isolation_witness :
  generate_speech sample_pipeline "boom" [] =
    (Raise (gr_error "Failed to generate speech: model failure"),
     ["Error generating speech: model failure"]) /\
  fst (serve sample_pipeline ["boom"; "hi"] []) =
    [Raise (gr_error "Failed to generate speech: model failure"); Ret (24000, [1; 2; 3])].
Proof.
  apply (AppFacts.generate_speech_error_isolation sample_pipeline "boom" "hi" []
           (mk_exc "RuntimeError" "model failure") "hi" "ph" [1; 2; 3]
           (GYield ("hi", "ph", [4]) (GRaise (mk_exc "RuntimeError" "late")))).
  - reflexivity.
  - left. reflexivity.
  - reflexivity.
Defined.

Lemma app_startup_gate_witness :
  run_app false failing_KPipeline ["hi"] =
    (Exited 1, ["Using device: cpu"; "Loading Kokoro TTS model...";
                "Error loading model: language not available"]).
Proof.
  apply (proj1 (AppFacts.app_startup_gate false failing_KPipeline ["hi"])
           (mk_exc "RuntimeError" "language not available")); reflexivity.
Defined.

Lemma generate_speech_fixed_voice_speed_witness :
  sample_pipeline "hi" "af_heart" 1 = other_config_pipeline "hi" "af_heart" 1 /\
  sample_pipeline "hi" "am_adam" 1 <> other_config_pipeline "hi" "am_adam" 1 /\
  generate_speech sample_pipeline "hi" = generate_speech other_config_pipeline "hi".
Proof.
  split; [reflexivity | split; [discriminate | ]].
  apply (AppFacts.generate_speech_fixed_voice_speed sample_pipeline other_config_pipeline "hi").
  reflexivity.
Defined.

Lemma generate_speech_empty_generator_witness :
  generate_speech sample_pipeline "" [] =
    (Raise (gr_error "Failed to generate speech: "), ["Error generating speech: "]).
Proof.
  apply (AppFacts.generate_speech_empty_generator sample_pipeline "" []).
  reflexivity.
Defined.

Lemma download_failure_printed_returns_none_witness :
  run_download snapshot_unauthorized ∅ ∅ None =
    (0, [start_line;
         "Error downloading model weights: 401 Client Error: Unauthorized";
         token_hint; token_url_hint]) /\
  run_download snapshot_ok ∅ ∅ None =
    (0, [start_line; "Model weights downloaded successfully!"]) /\
  fst (script_main snapshot_unauthorized ∅ ∅ None []) = Ret PyNone /\
  fst (script_main snapshot_ok ∅ ∅ None []) = Ret PyNone.
Proof.
  apply (DownloadFacts.download_failure_printed_returns_none snapshot_ok
           snapshot_unauthorized ∅ ∅ None local_dir
           (mk_exc "HfHubHTTPError" "401 Client Error: Unauthorized"));
    reflexivity.
Defined.

End Witnesses.

(** * Witnesses for the further properties *)
Module ExtraWitnesses.
Import App Samples DownloadWeights.

Lemma script_token_cli_nonempty_witness :
  script_token {["HUGGING_FACE_TOKEN" := "e"]} {["HUGGING_FACE_HUB_TOKEN" := "f"]}
    (Some "cli") = Some "cli".
Proof.
  apply ExtraFacts.script_token_cli_nonempty. discriminate.
Defined.

Lemma download_fixed_repo_and_dir_witness :
  snapshot_kokoro_only "other/repo" "./weights" None <>
    snapshot_ok "other/repo" "./weights" None /\
  download_model_weights snapshot_kokoro_only None =
    download_model_weights snapshot_ok None.
Proof.
  split; [discriminate | ].
  apply (ExtraFacts.download_fixed_repo_and_dir snapshot_kokoro_only snapshot_ok None).
  reflexivity.
Defined.




Lemma generate_speech_success_silent_witness :
  generate_speech sample_pipeline "hi" ["earlier line"] =
    (Ret (24000, [1; 2; 3]), ["earlier line"]) /\
  ["earlier line"] = ["earlier line"].
Proof.
  split; [reflexivity | ].
  apply (ExtraFacts.generate_speech_success_silent sample_pipeline "hi" ["earlier line"]
           (24000, [1; 2; 3])).
  reflexivity.
Defined.



End ExtraWitnesses.
